(** * Mean-reversion signal processor: a shallow embedding of
      [src/app/processor.py] and the properties of its two functions.

    Python values are modelled by the inductive [pyval]; a message is a
    finite map from field names to values ([gmap string pyval]).  Python
    floats are IEEE 754 binary64 numbers, modelled by [spec_float] with the
    operations of [SpecFloat] at precision 53 and maximal exponent 1024
    (round to nearest, ties to even).  Exceptions and the records handed to
    the module-level logger are threaded through a small state-and-error
    monad. *)

From Stdlib Require Import ZArith Lia Ascii String.
From Stdlib Require Import Floats.SpecFloat.
From stdpp Require Import base option gmap strings.

#[local] Open Scope Z_scope.
#[local] Set Warnings "-register-all".

(** ** Binary64 arithmetic as Python performs it *)

Module Float.

Definition prec : Z := 53.
Definition emax : Z := 1024.

Definition is_zero (x : spec_float) : bool :=
  match x with
  | S754_zero _ => true
  | _ => false
  end.

(** The double nearest to the decimal [(-1)^s * n / 10^k], which is what
    the interpreter's string-to-double conversion yields for a decimal
    literal and for the digit string built by [round].  The division is
    the correctly rounded one, applied to the exact integers. *)
Definition of_decimal (s : bool) (n : Z) (k : Z) : spec_float :=
  match n with
  | Zpos p =>
      SFdiv prec emax (S754_finite s p 0)
                      (S754_finite false (Z.to_pos (10 ^ k)) 0)
  | _ => S754_zero s
  end.

(** [x - y] on floats. *)
Definition sub (x y : spec_float) : spec_float := SFsub prec emax x y.

(** [-x] on floats. *)
Definition neg (x : spec_float) : spec_float := SFopp x.

(** The quotient of [x / y] once [y] is known not to be a zero. *)
Definition div (x y : spec_float) : spec_float := SFdiv prec emax x y.

(** [x < y] and [x > y]; both are false as soon as one side is a NaN. *)
Definition lt (x y : spec_float) : bool := SFltb x y.
Definition gt (x y : spec_float) : bool := SFltb y x.

(** Conversion of a Python int: the nearest double, ties to even; [None]
    when the integer is too large (the interpreter raises OverflowError). *)
Definition of_int (n : Z) : option spec_float :=
  match binary_normalize prec emax n 0 false with
  | S754_infinity _ | S754_nan => None
  | f => Some f
  end.

(** The integer nearest to [num / den] (for [0 < den]), a tie going to
    the even neighbour. *)
Definition round_half_even (num den : Z) : Z :=
  let (q, r) := Z.div_eucl num den in
  match 2 * r ?= den with
  | Lt => q
  | Gt => q + 1
  | Eq => if Z.even q then q else q + 1
  end.

(** The exact magnitude of a finite nonzero float [m * 2^e], as a
    fraction of two integers. *)
Definition magnitude (m : positive) (e : Z) : Z * Z :=
  match e with
  | Zneg k => (Zpos m, 2 ^ Zpos k)
  | _ => (Zpos m * 2 ^ e, 1)
  end.

(** The number of ten-thousandths (for [ndigits = 4]) nearest to the exact
    value of a finite float: the decimal the built-in [round] produces
    before it converts back to a double. *)
Definition scaled_digits (m : positive) (e : Z) (ndigits : Z) : Z :=
  let (num, den) := magnitude m e in
  round_half_even (num * 10 ^ ndigits) den.

(** The built-in [round(x, ndigits)] on a float, for the range of
    [ndigits] (0 to 323) in which the interpreter rounds through a decimal
    string: the exact binary value of [x] is rounded half-to-even to
    [ndigits] decimals and the decimal is converted to the nearest double.
    Infinities and NaN round to themselves; the sign of [x] is kept, also
    on a zero result. *)
Definition round (x : spec_float) (ndigits : Z) : spec_float :=
  match x with
  | S754_finite s m e => of_decimal s (scaled_digits m e ndigits) ndigits
  | _ => x
  end.

End Float.

(** ** Values, messages, exceptions and log records *)

(** The values a decoded message can hold. *)
Inductive pyval : Type :=
| PyNone
| PyBool (b : bool)
| PyInt (n : Z)
| PyFloat (f : spec_float)
| PyStr (s : string)
| PyList (items : list pyval)
| PyDict (items : gmap string pyval).

(** [dict[str, Any]]; [ValidatedMessage] is the same mapping, the
    annotation is not enforced at run time. *)
Abbreviation message := (gmap string pyval).

Variant exn_type : Type :=
| ValueError
| TypeError
| OverflowError
| ZeroDivisionError.

(** An exception raised by a [raise] statement of the module carries the
    text given there; one raised by the interpreter carries the
    interpreter's own text, which is not modelled. *)
Variant exn : Type :=
| Raised (t : exn_type) (text : string)
| Builtin (t : exn_type).

Definition exn_kind (e : exn) : exn_type :=
  match e with
  | Raised t _ | Builtin t => t
  end.

Variant log_level : Type := DEBUG | INFO | ERROR.

(** A call [logger.<level>(fmt, *args)]. *)
Record log_record : Type := LogRecord {
  level : log_level;
  fmt : string;
  args : list pyval
}.

(** ** Computations that log and may raise *)

Definition M (A : Type) : Type :=
  list log_record -> list log_record * (exn + A).

Definition ret {A} (a : A) : M A := fun log => (log, inr a).

Definition raise {A} (e : exn) : M A := fun log => (log, inl e).

Definition bind {A B} (c : M A) (k : A -> M B) : M B :=
  fun log =>
    match c log with
    | (log', inr a) => k a log'
    | (log', inl e) => (log', inl e)
    end.

#[export] Instance M_ret : MRet M := @ret.
#[export] Instance M_bind : MBind M := fun A B k c => bind c k.

Definition logger_call (lv : log_level) (f : string) (a : list pyval) : M unit :=
  fun log => (log ++ [LogRecord lv f a], inr tt).

Definition logger_debug := logger_call DEBUG.
Definition logger_info := logger_call INFO.
Definition logger_error := logger_call ERROR.

(** [d.get(key, default)] *)
Definition dict_get (d : message) (key : string) (default : pyval) : pyval :=
  match d !! key with
  | Some v => v
  | None => default
  end.

(** [{**a, **b}]: the entries of [a], overridden and extended by those
    of [b]. *)
Definition dict_merge (a b : message) : message := b ∪ a.

(** ** The module *)

Section Processor.

(** The text-to-float conversion of the interpreter ([float] applied to a
    [str]); [None] when the text is not a float literal. *)
Variable float_of_str : string -> option spec_float.

(** [app.utils.validate_data.validate_message_schema], the schema
    collaborator. *)
Variable validate_message_schema : message -> bool.

(** The built-in [float(v)]. *)
Definition float (v : pyval) : M spec_float :=
  match v with
  | PyFloat f => ret f
  | PyInt n =>
      match Float.of_int n with
      | Some f => ret f
      | None => raise (Builtin OverflowError)
      end
  | PyBool b => ret (if b then Float.of_decimal false 1 0 else S754_zero false)
  | PyStr s =>
      match float_of_str s with
      | Some f => ret f
      | None => raise (Builtin ValueError)
      end
  | PyNone | PyList _ | PyDict _ => raise (Builtin TypeError)
  end.

(** [x / y] on floats. *)
Definition float_truediv (x y : spec_float) : M spec_float :=
  if Float.is_zero y then raise (Builtin ZeroDivisionError)
  else ret (Float.div x y).

(** The float literals of the module. *)
Definition lit_100_0 : spec_float := Float.of_decimal false 1000 1.
Definition lit_0_03 : spec_float := Float.of_decimal false 3 2.

Definition validate_input_message (msg : message) : M message :=
  (logger_debug "🔍 Validating message schema..." [] ;;
   if negb (validate_message_schema msg) then
     logger_error "❌ Invalid message schema: %s" [PyDict msg] ;;
     raise (Raised ValueError "Invalid message format")
   else
     ret msg).

Definition compute_meanreversion_signal (msg : message) : M message :=
  (let symbol := dict_get msg "symbol" (PyStr "UNKNOWN") in
   price ← float (dict_get msg "price" (PyFloat lit_100_0)) ;
   moving_avg ← float (dict_get msg "moving_average" (PyFloat lit_100_0)) ;
   logger_info "↩️ Computing mean reversion signal for %s" [symbol] ;;
   deviation ← float_truediv (Float.sub price moving_avg) moving_avg ;
   let signal :=
     if Float.lt deviation (Float.neg lit_0_03) then "REVERT_UP"
     else if Float.gt deviation lit_0_03 then "REVERT_DOWN"
     else "NEUTRAL" in
   let result : message :=
     <["mean_reversion_signal" := PyStr signal]>
       (<["mean_reversion_deviation" := PyFloat (Float.round deviation 4)]> ∅) in
   logger_debug "📉 Mean reversion result for %s: %s" [symbol; PyDict result] ;;
   ret (dict_merge msg result)).

End Processor.

(** ** Vocabulary of the specification *)

(** The values [compute_meanreversion_signal] hands to [float]. *)
Definition price_field (msg : message) : pyval :=
  dict_get msg "price" (PyFloat lit_100_0).

Definition moving_average_field (msg : message) : pyval :=
  dict_get msg "moving_average" (PyFloat lit_100_0).

Definition symbol_field (msg : message) : pyval :=
  dict_get msg "symbol" (PyStr "UNKNOWN").

(** What a computation returns or raises, the log left aside. *)
Definition outcome {A} (c : M A) (log : list log_record) : exn + A := (c log).2.

(** [deviation = (price - moving_avg) / moving_avg] for a nonzero divisor. *)
Definition deviation_of (price moving_avg : spec_float) : spec_float :=
  Float.div (Float.sub price moving_avg) moving_avg.

(** [n] is an integer nearest to the fraction [num / den] (with [0 < den]),
    and it is the even one when two integers are equally near. *)
Definition nearest_ties_even (num den n : Z) : Prop :=
  2 * Z.abs (num - n * den) <= den /\
  (2 * Z.abs (num - n * den) = den -> Z.even n = true).

(** [r] is the float [d] rounded half-to-even to [ndigits] decimal places:
    for a finite nonzero [d] of sign [s], the double nearest to the decimal
    [(-1)^s * n / 10^ndigits], where [n] is the integer nearest (ties to
    even) to [|d| * 10^ndigits]; zeros, infinities and NaN are unchanged. *)
Definition rounds_half_even_to (ndigits : Z) (d r : spec_float) : Prop :=
  match d with
  | S754_finite s m e =>
      exists n : Z,
        nearest_ties_even ((Float.magnitude m e).1 * 10 ^ ndigits)
                          (Float.magnitude m e).2 n /\
        r = Float.of_decimal s n ndigits
  | _ => r = d
  end.

(** The records the two logger calls of [compute_meanreversion_signal]
    leave. *)
Definition info_record (symbol : pyval) : log_record :=
  LogRecord INFO "↩️ Computing mean reversion signal for %s" [symbol].

Definition debug_record (symbol : pyval) (result : message) : log_record :=
  LogRecord DEBUG "📉 Mean reversion result for %s: %s" [symbol; PyDict result].

(** ** An interpreter instance and sample messages for the examples *)

Definition digit_of (c : ascii) : option Z :=
  let n := Z.of_N (N_of_ascii c) in
  if (48 <=? n) && (n <=? 57) then Some (n - 48) else None.

Fixpoint digits_value (acc : Z) (cs : list ascii) : option Z :=
  match cs with
  | [] => Some acc
  | c :: cs' =>
      match digit_of c with
      | Some d => digits_value (10 * acc + d) cs'
      | None => None
      end
  end.

Fixpoint split_point (cs : list ascii) : list ascii * list ascii :=
  match cs with
  | [] => ([], [])
  | c :: cs' =>
      if Ascii.eqb c "."%char then ([], cs')
      else let (a, b) := split_point cs' in (c :: a, b)
  end.

(** Texts of the form [-]digits[.digits], the only ones the examples use;
    every other text is rejected by this instance. *)
Definition decimal_float_of_str (s : string) : option spec_float :=
  let cs := list_ascii_of_string s in
  let (neg, body) :=
    match cs with
    | c :: cs' => if Ascii.eqb c "-"%char then (true, cs') else (false, cs)
    | [] => (false, cs)
    end in
  let (ip, fp) := split_point body in
  match ip with
  | [] => None
  | _ =>
      match digits_value 0 (ip ++ fp) with
      | Some n => Some (Float.of_decimal neg n (Z.of_nat (length fp)))
      | None => None
      end
  end.

(** A schema that asks for the three fields to be present. *)
Definition three_fields_schema (msg : message) : bool :=
  bool_decide (is_Some (msg !! "symbol")) &&
  bool_decide (is_Some (msg !! "price")) &&
  bool_decide (is_Some (msg !! "moving_average")).

Definition quote (symbol : string) (price moving_average : pyval) : message :=
  <["symbol" := PyStr symbol]>
    (<["price" := price]> (<["moving_average" := moving_average]> ∅)).

(** A price given as text, 3.1 % under the moving average. *)
Definition sample_low : message := quote "ACME" (PyStr "96.9") (PyInt 100).

(** A message that already carries the two computed keys. *)
Definition sample_stale : message :=
  <["mean_reversion_signal" := PyStr "STALE"]>
    (<["mean_reversion_deviation" := PyNone]>
       (quote "ACME" (PyFloat (Float.of_decimal false 10301 2)) (PyInt 100))).

(** The boundary message of the specification: price 103, average 100. *)
Definition sample_boundary : message := quote "ACME" (PyInt 103) (PyInt 100).

(** A message with neither price nor moving average. *)
Definition sample_bare : message := <["symbol" := PyStr "ACME"]> ∅.

(** A message without a symbol. *)
Definition sample_anonymous : message :=
  <["price" := PyInt 101]> (<["moving_average" := PyInt 100]> ∅).

Definition sample_compute := compute_meanreversion_signal decimal_float_of_str.
Definition sample_validate := validate_input_message three_fields_schema.

(** [float_of_str] turns [v] into the float [f]: [float(v)] returns [f],
    whatever the logger holds, and logs nothing. *)
Definition coerces_to (float_of_str : string -> option spec_float)
    (v : pyval) (f : spec_float) : Prop :=
  forall log, float float_of_str v log = (log, inr f).

(** [float(v)] raises [e], whatever the logger holds, and logs nothing. *)
Definition fails_with (float_of_str : string -> option spec_float)
    (v : pyval) (e : exn) : Prop :=
  forall log, float float_of_str v log = (log, inl e).

(** The two computed keys. *)
Definition computed_keys : gset string :=
  {["mean_reversion_deviation"; "mean_reversion_signal"]}.


(** Messages for the edge cases of the computation. *)
Definition sample_null_price : message := quote "ACME" PyNone (PyInt 0).

Definition sample_bad_average : message :=
  quote "ACME" (PyInt 103) (PyStr "n/a").

Definition sample_nan : message :=
  quote "ACME" (PyFloat S754_nan) (PyInt 100).

Definition sample_soaring : message :=
  quote "ACME" (PyFloat (S754_infinity false)) (PyStr "-100").

Definition sample_flat : message :=
  quote "ACME" (PyStr "-96.9") (PyFloat (Float.of_decimal true 969 1)).

(** What the function returns for [sample_boundary]. *)
Definition sample_boundary_out : message :=
  <["mean_reversion_signal" := PyStr "NEUTRAL"]>
    (<["mean_reversion_deviation" := PyFloat lit_0_03]> sample_boundary).

Definition sample_boundary_text : message :=
  <["venue" := PyStr "XNYS"]> (quote "ACME" (PyStr "103") (PyStr "100.0")).

(** ** Facts about the float operations *)

Lemma lit_0_03_bits : lit_0_03 = S754_finite false 8646911284551352 (-58).
Proof. vm_compute. reflexivity. Qed.

Lemma lit_100_0_bits : lit_100_0 = S754_finite false 7036874417766400 (-46).
Proof. vm_compute. reflexivity. Qed.

(** The two comparisons of the classification never hold together. *)
Lemma below_excludes_above (d : spec_float) :
  Float.lt d (Float.neg lit_0_03) = true -> Float.gt d lit_0_03 = false.
Proof.
  rewrite lit_0_03_bits. unfold Float.lt, Float.gt, Float.neg, SFltb.
  destruct d as [s | s | | s m e]; try destruct s; intros H;
    try reflexivity; hnf in H; discriminate H.
Qed.

Lemma magnitude_den_pos (m : positive) (e : Z) : 0 < (Float.magnitude m e).2.
Proof.
  unfold Float.magnitude.
  destruct e; simpl; first [lia | apply Z.pow_pos_nonneg; lia].
Qed.

Lemma round_half_even_nearest (num den : Z) :
  0 < den -> nearest_ties_even num den (Float.round_half_even num den).
Proof.
  intros Hden. unfold nearest_ties_even, Float.round_half_even.
  pose proof (Z_div_mod num den ltac:(lia)) as Hdm.
  destruct (Z.div_eucl num den) as [q r]. destruct Hdm as [Hnum Hr].
  destruct (Z.compare_spec (2 * r) den) as [Htie | Hlow | Hhigh].
  - destruct (Z.even q) eqn:Hev.
    + split; [lia | auto].
    + split; [lia |]. intros _.
      rewrite Z.even_add, Hev. reflexivity.
  - split; [lia | intros Hhalf; exfalso; lia].
  - split; [lia | intros Hhalf; exfalso; lia].
Qed.

(** The nearest integer with ties to even is unique: the relation is the
    rounding function. *)
Lemma nearest_ties_even_unique (num den n1 n2 : Z) :
  0 < den ->
  nearest_ties_even num den n1 -> nearest_ties_even num den n2 -> n1 = n2.
Proof.
  intros Hden [H1 E1] [H2 E2].
  assert (Hclose : n1 = n2 \/ n1 = n2 + 1 \/ n2 = n1 + 1) by nia.
  destruct Hclose as [-> | [-> | ->]]; [reflexivity | exfalso | exfalso].
  - assert (Hd2 : 2 * Z.abs (num - n2 * den) = den) by nia.
    assert (Hd1 : 2 * Z.abs (num - (n2 + 1) * den) = den) by nia.
    specialize (E1 Hd1). specialize (E2 Hd2).
    rewrite Z.even_add, E2 in E1. discriminate.
  - assert (Hd1 : 2 * Z.abs (num - n1 * den) = den) by nia.
    assert (Hd2 : 2 * Z.abs (num - (n1 + 1) * den) = den) by nia.
    specialize (E1 Hd1). specialize (E2 Hd2).
    rewrite Z.even_add, E1 in E2. discriminate.
Qed.

(** The built-in [round] rounds the exact value half-to-even. *)
Lemma round_rounds_half_even (d : spec_float) (ndigits : Z) :
  rounds_half_even_to ndigits d (Float.round d ndigits).
Proof.
  destruct d as [s | s | | s m e]; simpl; try reflexivity.
  exists (Float.scaled_digits m e ndigits). split; [| reflexivity].
  unfold Float.scaled_digits.
  pose proof (magnitude_den_pos m e) as Hpos.
  destruct (Float.magnitude m e) as [num den]. simpl in *.
  apply round_half_even_nearest. exact Hpos.
Qed.

(** ** Facts about the merged mapping *)

Lemma merged_signal (msg : message) (sig dev : pyval) :
  dict_merge msg (<["mean_reversion_signal" := sig]>
                    (<["mean_reversion_deviation" := dev]> ∅))
    !! "mean_reversion_signal" = Some sig.
Proof.
  unfold dict_merge. apply lookup_union_Some_l. apply lookup_insert_eq.
Qed.

Lemma merged_deviation (msg : message) (sig dev : pyval) :
  dict_merge msg (<["mean_reversion_signal" := sig]>
                    (<["mean_reversion_deviation" := dev]> ∅))
    !! "mean_reversion_deviation" = Some dev.
Proof.
  unfold dict_merge. apply lookup_union_Some_l.
  rewrite lookup_insert_ne by discriminate. apply lookup_insert_eq.
Qed.

Lemma merged_other (msg : message) (sig dev : pyval) (k : string) :
  k <> "mean_reversion_deviation" -> k <> "mean_reversion_signal" ->
  dict_merge msg (<["mean_reversion_signal" := sig]>
                    (<["mean_reversion_deviation" := dev]> ∅)) !! k
  = msg !! k.
Proof.
  intros Hdev Hsig. unfold dict_merge. apply lookup_union_r.
  rewrite !lookup_insert_ne by congruence. apply lookup_empty.
Qed.

Lemma merged_as_inserts (msg : message) (sig dev : pyval) :
  dict_merge msg (<["mean_reversion_signal" := sig]>
                    (<["mean_reversion_deviation" := dev]> ∅))
  = <["mean_reversion_signal" := sig]>
      (<["mean_reversion_deviation" := dev]> msg).
Proof.
  apply map_eq. intros k.
  destruct (decide (k = "mean_reversion_signal")) as [-> | Hsig].
  { rewrite merged_signal, lookup_insert_eq. reflexivity. }
  destruct (decide (k = "mean_reversion_deviation")) as [-> | Hdev].
  { rewrite merged_deviation, lookup_insert_ne by discriminate.
    rewrite lookup_insert_eq. reflexivity. }
  rewrite merged_other by assumption.
  rewrite !lookup_insert_ne by congruence. reflexivity.
Qed.

Lemma dict_get_absent (msg : message) (k : string) (default : pyval) :
  msg !! k = None -> dict_get msg k default = default.
Proof. unfold dict_get. intros ->. reflexivity. Qed.

(** At a deviation of exactly -0.03 or +0.03 neither comparison holds. *)
Lemma boundary_comparisons (d : spec_float) :
  d = Float.neg lit_0_03 \/ d = lit_0_03 ->
  Float.lt d (Float.neg lit_0_03) = false /\ Float.gt d lit_0_03 = false.
Proof. intros [-> | ->]; vm_compute; split; reflexivity. Qed.

(** ** The validator *)

Section Validator.

Variable validate_message_schema : message -> bool.

#[local] Abbreviation validate :=
  (validate_input_message validate_message_schema).

(** The run of [validate_input_message]. *)
Lemma validate_run (msg : message) (log : list log_record) :
  validate msg log =
    (if validate_message_schema msg
     then (log ++ [LogRecord DEBUG "🔍 Validating message schema..." []],
           inr msg)
     else (log ++ [LogRecord DEBUG "🔍 Validating message schema..." [];
                   LogRecord ERROR "❌ Invalid message schema: %s"
                             [PyDict msg]],
           inl (Raised ValueError "Invalid message format"))).
Proof.
  unfold validate_input_message, mbind, M_bind, bind.
  unfold logger_debug, logger_error, logger_call.
  destruct (validate_message_schema msg); cbn [negb].
  - reflexivity.
  - rewrite <- app_assoc. reflexivity.
Qed.

(** C3: [validate_input_message] raises exactly when the schema
    collaborator answers false, and what it raises then is the ValueError
    of the module, after the offending message was logged as an error; when
    the collaborator answers true the input mapping is returned as it
    is. *)
Theorem validate_fails_iff_schema_rejects
    (msg : message) (log : list log_record) :
  ((exists e, outcome (validate msg) log = inl e)
     <-> validate_message_schema msg = false) /\
  ((exists e, outcome (validate msg) log = inl e /\ exn_kind e = ValueError)
     <-> validate_message_schema msg = false) /\
  (validate_message_schema msg = false ->
   validate msg log =
     (log ++ [LogRecord DEBUG "🔍 Validating message schema..." [];
              LogRecord ERROR "❌ Invalid message schema: %s" [PyDict msg]],
      inl (Raised ValueError "Invalid message format"))) /\
  (validate_message_schema msg = true ->
   outcome (validate msg) log = inr msg).
Proof.
  unfold outcome. rewrite validate_run.
  destruct (validate_message_schema msg); cbn [snd].
  - split; [| split; [| split]].
    + split; [intros [e He] |]; discriminate.
    + split; [intros [e [He _]] |]; discriminate.
    + discriminate.
    + reflexivity.
  - split; [| split; [| split]].
    + split; [reflexivity |]. intros _. eexists. reflexivity.
    + split; [reflexivity |]. intros _. eexists. split; reflexivity.
    + reflexivity.
    + discriminate.
Qed.

End Validator.

(** ** Running the signal computer *)

Section Properties.

Variable float_of_str : string -> option spec_float.

#[local] Abbreviation float' := (float float_of_str).
#[local] Abbreviation coerces := (coerces_to float_of_str).
#[local] Abbreviation compute := (compute_meanreversion_signal float_of_str).

(** [float] never logs: it returns or raises, and leaves the log alone. *)
Lemma float_pure (v : pyval) (log : list log_record) :
  float' v log = (log, outcome (float' v) []).
Proof.
  unfold outcome, float.
  destruct v as [ | b | n | f | s | items | items]; try reflexivity.
  - destruct (Float.of_int n); reflexivity.
  - destruct (float_of_str s); reflexivity.
Qed.

Lemma float_cases (v : pyval) :
  (exists f, coerces v f) \/
  (exists e, forall log, float' v log = (log, inl e)).
Proof.
  destruct (outcome (float' v) []) as [e | f] eqn:Hout.
  - right. exists e. intros log. rewrite float_pure, Hout. reflexivity.
  - left. exists f. intros log. rewrite float_pure, Hout. reflexivity.
Qed.

Lemma coerces_functional (v : pyval) (f1 f2 : spec_float) :
  coerces v f1 -> coerces v f2 -> f1 = f2.
Proof.
  intros H1 H2. specialize (H1 []). specialize (H2 []). congruence.
Qed.

(** The run of [compute_meanreversion_signal] on a message whose two
    numeric fields convert and whose moving average is not a zero. *)
Lemma compute_run (msg : message) (log : list log_record) (p ma : spec_float) :
  coerces (price_field msg) p ->
  coerces (moving_average_field msg) ma ->
  Float.is_zero ma = false ->
  compute msg log =
    (let d := deviation_of p ma in
     let signal :=
       if Float.lt d (Float.neg lit_0_03) then "REVERT_UP"
       else if Float.gt d lit_0_03 then "REVERT_DOWN"
       else "NEUTRAL" in
     let result : message :=
       <["mean_reversion_signal" := PyStr signal]>
         (<["mean_reversion_deviation" := PyFloat (Float.round d 4)]> ∅) in
     (log ++ [info_record (symbol_field msg);
              debug_record (symbol_field msg) result],
      inr (dict_merge msg result))).
Proof.
  intros Hp Hma Hnz.
  unfold compute_meanreversion_signal, mbind, M_bind, bind.
  fold (price_field msg) (moving_average_field msg) (symbol_field msg).
  rewrite (Hp log), (Hma log).
  unfold logger_info, logger_debug, logger_call, float_truediv.
  rewrite Hnz. cbv zeta. unfold ret, deviation_of, info_record, debug_record.
  rewrite <- app_assoc. reflexivity.
Qed.

(** The run on a message whose moving average converts to a zero. *)
Lemma compute_run_zero (msg : message) (log : list log_record) (p z : spec_float) :
  coerces (price_field msg) p ->
  coerces (moving_average_field msg) z ->
  Float.is_zero z = true ->
  compute msg log =
    (log ++ [info_record (symbol_field msg)], inl (Builtin ZeroDivisionError)).
Proof.
  intros Hp Hz Hzero.
  unfold compute_meanreversion_signal, mbind, M_bind, bind.
  fold (price_field msg) (moving_average_field msg) (symbol_field msg).
  rewrite (Hp log), (Hz log).
  unfold logger_info, logger_call, float_truediv.
  rewrite Hzero. reflexivity.
Qed.

(** The runs in which a conversion raises. *)
Lemma compute_run_bad_price (msg : message) (log : list log_record) (e : exn) :
  (forall l, float' (price_field msg) l = (l, inl e)) ->
  compute msg log = (log, inl e).
Proof.
  intros He.
  unfold compute_meanreversion_signal, mbind, M_bind, bind.
  fold (price_field msg). rewrite (He log). reflexivity.
Qed.

Lemma compute_run_bad_average (msg : message) (log : list log_record)
    (p : spec_float) (e : exn) :
  coerces (price_field msg) p ->
  (forall l, float' (moving_average_field msg) l = (l, inl e)) ->
  compute msg log = (log, inl e).
Proof.
  intros Hp He.
  unfold compute_meanreversion_signal, mbind, M_bind, bind.
  fold (price_field msg) (moving_average_field msg).
  rewrite (Hp log), (He log). reflexivity.
Qed.

(** A run that returns is a run of the first kind. *)
Lemma compute_returns_inv (msg out : message) (log : list log_record) :
  outcome (compute msg) log = inr out ->
  exists p ma,
    coerces (price_field msg) p /\
    coerces (moving_average_field msg) ma /\
    Float.is_zero ma = false.
Proof.
  unfold outcome. intros Hout.
  destruct (float_cases (price_field msg)) as [[p Hp] | [e He]].
  2: { rewrite (compute_run_bad_price _ _ _ He) in Hout. discriminate. }
  destruct (float_cases (moving_average_field msg)) as [[ma Hma] | [e He]].
  2: { rewrite (compute_run_bad_average _ _ _ _ Hp He) in Hout. discriminate. }
  destruct (Float.is_zero ma) eqn:Hz.
  - rewrite (compute_run_zero _ _ _ _ Hp Hma Hz) in Hout. discriminate.
  - exists p, ma. auto.
Qed.

(** ** The classification *)

(** C1: for every message whose price and moving average convert to floats,
    the moving average not being a zero, [compute_meanreversion_signal]
    returns and sets [mean_reversion_signal] by exactly one of three cases
    on [deviation = (price - moving_average) / moving_average]:
    "REVERT_UP" exactly when [deviation < -0.03], "REVERT_DOWN" exactly when
    [deviation > 0.03], "NEUTRAL" exactly when neither holds; the first two
    conditions never hold together, and a deviation equal to -0.03 or to
    0.03 gives "NEUTRAL". *)
Theorem signal_is_one_of_three_cases
    (msg : message) (log : list log_record) (p ma : spec_float) :
  coerces (price_field msg) p ->
  coerces (moving_average_field msg) ma ->
  Float.is_zero ma = false ->
  let d := deviation_of p ma in
  let below := Float.lt d (Float.neg lit_0_03) in
  let above := Float.gt d lit_0_03 in
  exists (out : message) (signal : string),
    outcome (compute msg) log = inr out /\
    out !! "mean_reversion_signal" = Some (PyStr signal) /\
    (signal = "REVERT_UP" \/ signal = "REVERT_DOWN" \/ signal = "NEUTRAL") /\
    (signal = "REVERT_UP" <-> below = true) /\
    (signal = "REVERT_DOWN" <-> above = true) /\
    (signal = "NEUTRAL" <-> below = false /\ above = false) /\
    ~ (below = true /\ above = true) /\
    (d = Float.neg lit_0_03 \/ d = lit_0_03 -> signal = "NEUTRAL").
Proof.
  intros Hp Hma Hnz d below above.
  pose proof (below_excludes_above d) as Hexcl.
  pose proof (boundary_comparisons d) as Hedge.
  unfold outcome. rewrite (compute_run _ _ _ _ Hp Hma Hnz). cbv zeta.
  fold d. fold below. fold above. fold below in Hexcl, Hedge.
  fold above in Hexcl, Hedge.
  destruct below eqn:Hb; [rewrite (Hexcl eq_refl) | destruct above eqn:Ha];
    eexists; eexists; (split; [reflexivity |]); rewrite merged_signal;
    (split; [reflexivity |]);
    intuition (try discriminate; try congruence).
Qed.

(** C2: for every message whose two numeric fields convert, the moving
    average not being a zero, the field [mean_reversion_deviation] of the
    output is the float [(price - moving_average) / moving_average] rounded
    half-to-even to 4 decimal places. *)
Theorem deviation_field_is_rounded_half_even
    (msg : message) (log : list log_record) (p ma : spec_float) :
  coerces (price_field msg) p ->
  coerces (moving_average_field msg) ma ->
  Float.is_zero ma = false ->
  exists (out : message) (r : spec_float),
    outcome (compute msg) log = inr out /\
    out !! "mean_reversion_deviation" = Some (PyFloat r) /\
    rounds_half_even_to 4 (Float.div (Float.sub p ma) ma) r.
Proof.
  intros Hp Hma Hnz. eexists. eexists. split.
  { unfold outcome. rewrite (compute_run _ _ _ _ Hp Hma Hnz). reflexivity. }
  cbv zeta. rewrite merged_deviation. split; [reflexivity |].
  apply round_rounds_half_even.
Qed.

(** ** Division by a zero moving average *)

(** C4: when the moving average of a message converts to a zero (of either
    sign) the function returns no enriched message: the division raises
    ZeroDivisionError as soon as the price converts, and nothing guards it.
    The case is reachable: the message holding only [moving_average = 0]
    raises it. *)
Theorem zero_moving_average_raises :
  (forall (msg : message) (log : list log_record) (z : spec_float),
     coerces (moving_average_field msg) z ->
     Float.is_zero z = true ->
     (forall out, outcome (compute msg) log <> inr out) /\
     (forall p, coerces (price_field msg) p ->
        compute msg log =
          (log ++ [info_record (symbol_field msg)],
           inl (Builtin ZeroDivisionError)))) /\
  (exists msg : message,
     coerces (moving_average_field msg) (S754_zero false) /\
     forall log,
       outcome (compute msg) log = inl (Builtin ZeroDivisionError)).
Proof.
  split.
  - intros msg log z Hz Hzero. split.
    + intros out Hout.
      destruct (compute_returns_inv _ _ _ Hout) as (p & ma & _ & Hma & Hnz).
      rewrite (coerces_functional _ _ _ Hma Hz) in Hnz. congruence.
    + intros p Hp. apply (compute_run_zero _ _ _ _ Hp Hz Hzero).
  - exists (<["moving_average" := PyInt 0]> ∅).
    assert (Hz : coerces (moving_average_field
                            (<["moving_average" := PyInt 0]> ∅))
                         (S754_zero false)).
    { intros log. reflexivity. }
    split; [exact Hz |].
    intros log. unfold outcome.
    rewrite (compute_run_zero _ log lit_100_0 (S754_zero false));
      [reflexivity | intros l; reflexivity | exact Hz | reflexivity].
Qed.

(** ** The enriched message *)

(** C5: the output is the input with the two computed fields merged in.
    Every key other than [mean_reversion_deviation] and
    [mean_reversion_signal] is looked up in the output as in the input; the
    two computed keys hold the computed values, whatever the input held
    under them; the keys of the output are those of the input and the
    two computed ones. *)
Theorem output_is_input_plus_two_fields
    (msg : message) (log : list log_record) (p ma : spec_float) :
  coerces (price_field msg) p ->
  coerces (moving_average_field msg) ma ->
  Float.is_zero ma = false ->
  let d := deviation_of p ma in
  let signal :=
    if Float.lt d (Float.neg lit_0_03) then "REVERT_UP"
    else if Float.gt d lit_0_03 then "REVERT_DOWN"
    else "NEUTRAL" in
  exists out : message,
    outcome (compute msg) log = inr out /\
    out = <["mean_reversion_signal" := PyStr signal]>
            (<["mean_reversion_deviation" := PyFloat (Float.round d 4)]> msg) /\
    (forall k, k <> "mean_reversion_deviation" ->
               k <> "mean_reversion_signal" -> out !! k = msg !! k) /\
    out !! "mean_reversion_deviation" = Some (PyFloat (Float.round d 4)) /\
    out !! "mean_reversion_signal" = Some (PyStr signal) /\
    dom out = dom msg ∪ {["mean_reversion_deviation"; "mean_reversion_signal"]}.
Proof.
  intros Hp Hma Hnz d signal. eexists. split.
  { unfold outcome. rewrite (compute_run _ _ _ _ Hp Hma Hnz). reflexivity. }
  cbv zeta. fold d. fold signal.
  split; [apply merged_as_inserts |].
  split; [intros k Hdev Hsig; apply merged_other; assumption |].
  split; [apply merged_deviation |].
  split; [apply merged_signal |].
  rewrite merged_as_inserts, !dom_insert_L.
  apply set_eq. intros k. rewrite !elem_of_union. tauto.
Qed.

(** ** Defaults *)

(** C6: an absent [symbol] is read as "UNKNOWN" (it is what the log
    records name), an absent [price] as the float 100.0 and an absent
    [moving_average] as the float 100.0; a message with neither [price] nor
    [moving_average] gets the deviation 0.0 and the signal "NEUTRAL". *)
Theorem defaults_for_absent_fields (msg : message) (log : list log_record) :
  Float.of_int 100 = Some lit_100_0 /\
  (msg !! "symbol" = None ->
   forall p ma,
     coerces (price_field msg) p ->
     coerces (moving_average_field msg) ma ->
     exists rest,
       (compute msg log).1 = log ++ info_record (PyStr "UNKNOWN") :: rest) /\
  (msg !! "price" = None ->
   forall ma,
     coerces (moving_average_field msg) ma ->
     Float.is_zero ma = false ->
     exists out : message,
       outcome (compute msg) log = inr out /\
       out !! "mean_reversion_deviation" =
         Some (PyFloat (Float.round (deviation_of lit_100_0 ma) 4))) /\
  (msg !! "moving_average" = None ->
   forall p,
     coerces (price_field msg) p ->
     exists out : message,
       outcome (compute msg) log = inr out /\
       out !! "mean_reversion_deviation" =
         Some (PyFloat (Float.round (deviation_of p lit_100_0) 4))) /\
  (msg !! "price" = None ->
   msg !! "moving_average" = None ->
   deviation_of lit_100_0 lit_100_0 = S754_zero false /\
   exists out : message,
     outcome (compute msg) log = inr out /\
     out !! "mean_reversion_deviation" = Some (PyFloat (S754_zero false)) /\
     out !! "mean_reversion_signal" = Some (PyStr "NEUTRAL")).
Proof.
  assert (Hdefault : forall k, msg !! k = None ->
            coerces (dict_get msg k (PyFloat lit_100_0)) lit_100_0).
  { intros k Hk log'. rewrite (dict_get_absent _ _ _ Hk). reflexivity. }
  split; [vm_compute; reflexivity |].
  split; [| split; [| split]].
  - intros Hsym p ma Hp Hma.
    assert (Hs : symbol_field msg = PyStr "UNKNOWN")
      by (apply dict_get_absent; exact Hsym).
    destruct (Float.is_zero ma) eqn:Hz.
    + rewrite (compute_run_zero _ _ _ _ Hp Hma Hz), Hs.
      exists []. reflexivity.
    + rewrite (compute_run _ _ _ _ Hp Hma Hz), Hs. cbv zeta.
      eexists. reflexivity.
  - intros Hprice ma Hma Hnz.
    pose proof (Hdefault "price" Hprice) as Hp.
    eexists. split.
    { unfold outcome. rewrite (compute_run _ _ _ _ Hp Hma Hnz). reflexivity. }
    cbv zeta. apply merged_deviation.
  - intros Havg p Hp.
    pose proof (Hdefault "moving_average" Havg) as Hma.
    eexists. split.
    { unfold outcome.
      rewrite (compute_run _ _ _ _ Hp Hma eq_refl). reflexivity. }
    cbv zeta. apply merged_deviation.
  - intros Hprice Havg.
    pose proof (Hdefault "price" Hprice) as Hp.
    pose proof (Hdefault "moving_average" Havg) as Hma.
    assert (Hdev : deviation_of lit_100_0 lit_100_0 = S754_zero false)
      by (vm_compute; reflexivity).
    split; [exact Hdev |].
    eexists. split.
    { unfold outcome.
      rewrite (compute_run _ _ _ _ Hp Hma eq_refl). reflexivity. }
    cbv zeta. rewrite merged_deviation, merged_signal, Hdev.
    split; reflexivity.
Qed.

(** ** Boundary inputs *)

(** C7: with a moving average of 100.0, a price of 103 gives the deviation
    0.03 and the signal "NEUTRAL"; a price of 103.01 gives a deviation
    above 0.03 that is stored as 0.0301, and the signal "REVERT_DOWN"; a
    price of 96.9 gives a deviation below -0.03 that is stored as -0.031,
    and the signal "REVERT_UP". *)
Theorem boundary_inputs (msg : message) (log : list log_record) :
  (coerces (price_field msg) (Float.of_decimal false 103 0) ->
   coerces (moving_average_field msg) lit_100_0 ->
   exists out : message,
     outcome (compute msg) log = inr out /\
     deviation_of (Float.of_decimal false 103 0) lit_100_0 = lit_0_03 /\
     out !! "mean_reversion_deviation" = Some (PyFloat lit_0_03) /\
     out !! "mean_reversion_signal" = Some (PyStr "NEUTRAL")) /\
  (coerces (price_field msg) (Float.of_decimal false 10301 2) ->
   coerces (moving_average_field msg) lit_100_0 ->
   exists out : message,
     outcome (compute msg) log = inr out /\
     Float.gt (deviation_of (Float.of_decimal false 10301 2) lit_100_0)
              lit_0_03 = true /\
     out !! "mean_reversion_deviation" =
       Some (PyFloat (Float.of_decimal false 301 4)) /\
     out !! "mean_reversion_signal" = Some (PyStr "REVERT_DOWN")) /\
  (coerces (price_field msg) (Float.of_decimal false 969 1) ->
   coerces (moving_average_field msg) lit_100_0 ->
   exists out : message,
     outcome (compute msg) log = inr out /\
     Float.lt (deviation_of (Float.of_decimal false 969 1) lit_100_0)
              (Float.neg lit_0_03) = true /\
     out !! "mean_reversion_deviation" =
       Some (PyFloat (Float.of_decimal true 31 3)) /\
     out !! "mean_reversion_signal" = Some (PyStr "REVERT_UP")).
Proof.
  split; [| split]; intros Hp Hma; eexists;
    (split;
     [ unfold outcome; rewrite (compute_run _ _ _ _ Hp Hma eq_refl);
       reflexivity
     | cbv zeta; rewrite merged_deviation, merged_signal;
       vm_compute; repeat split; reflexivity ]).
Qed.

(** ** Dependence on the input *)

(** C8: the function is deterministic, also with respect to what the
    logger already holds, and its two computed fields depend on the [price]
    and [moving_average] entries only: two messages that agree on these two
    entries either both raise, the same exception, or both return, with
    equal [mean_reversion_deviation] and equal [mean_reversion_signal]. *)
Theorem computed_fields_depend_on_price_and_average
    (m1 m2 : message) (log1 log2 : list log_record) :
  (m1 = m2 -> outcome (compute m1) log1 = outcome (compute m2) log2) /\
  (m1 = m2 -> log1 = log2 -> compute m1 log1 = compute m2 log2) /\
  (m1 !! "price" = m2 !! "price" ->
   m1 !! "moving_average" = m2 !! "moving_average" ->
   match outcome (compute m1) log1, outcome (compute m2) log2 with
   | inr out1, inr out2 =>
       out1 !! "mean_reversion_deviation" = out2 !! "mean_reversion_deviation" /\
       out1 !! "mean_reversion_signal" = out2 !! "mean_reversion_signal"
   | inl e1, inl e2 => e1 = e2
   | _, _ => False
   end).
Proof.
  assert (Hlog : forall m, outcome (compute m) log1 = outcome (compute m) log2).
  { intros m. unfold outcome.
    destruct (float_cases (price_field m)) as [[p Hp] | [e He]].
    2: { rewrite !(compute_run_bad_price _ _ _ He). reflexivity. }
    destruct (float_cases (moving_average_field m)) as [[ma Hma] | [e He]].
    2: { rewrite !(compute_run_bad_average _ _ _ _ Hp He). reflexivity. }
    destruct (Float.is_zero ma) eqn:Hz.
    - rewrite !(compute_run_zero _ _ _ _ Hp Hma Hz). reflexivity.
    - rewrite !(compute_run _ _ _ _ Hp Hma Hz). reflexivity. }
  split; [intros ->; apply Hlog |].
  split; [intros -> ->; reflexivity |].
  intros Hprice Havg.
  assert (Hpf : price_field m1 = price_field m2)
    by (unfold price_field, dict_get; rewrite Hprice; reflexivity).
  assert (Hmf : moving_average_field m1 = moving_average_field m2)
    by (unfold moving_average_field, dict_get; rewrite Havg; reflexivity).
  unfold outcome.
  destruct (float_cases (price_field m1)) as [[p Hp] | [e He]].
  2: { rewrite (compute_run_bad_price _ _ _ He).
       rewrite Hpf in He. rewrite (compute_run_bad_price _ _ _ He).
       reflexivity. }
  destruct (float_cases (moving_average_field m1)) as [[ma Hma] | [e He]].
  2: { rewrite (compute_run_bad_average _ _ _ _ Hp He).
       rewrite Hpf in Hp. rewrite Hmf in He.
       rewrite (compute_run_bad_average _ _ _ _ Hp He). reflexivity. }
  destruct (Float.is_zero ma) eqn:Hz.
  - rewrite (compute_run_zero _ _ _ _ Hp Hma Hz).
    rewrite Hpf in Hp. rewrite Hmf in Hma.
    rewrite (compute_run_zero _ _ _ _ Hp Hma Hz). reflexivity.
  - rewrite (compute_run _ _ _ _ Hp Hma Hz).
    rewrite Hpf in Hp. rewrite Hmf in Hma.
    rewrite (compute_run _ _ _ _ Hp Hma Hz). cbv zeta. cbn [snd].
    rewrite !merged_deviation, !merged_signal. split; reflexivity.
Qed.

(** ** Rounding against classification *)

(** C9: the signal is decided on the unrounded deviation and the stored
    deviation is the rounded one. The message with price 103.004 and
    moving average 100 has a deviation above 0.03, is given the signal
    "REVERT_DOWN", and stores the deviation 0.03, which is neither below
    -0.03 nor above 0.03. *)
Theorem stored_deviation_can_be_neutral_under_a_revert_signal :
  exists msg : message,
    coerces (price_field msg) (Float.of_decimal false 103004 3) /\
    coerces (moving_average_field msg) lit_100_0 /\
    Float.gt (deviation_of (Float.of_decimal false 103004 3) lit_100_0)
             lit_0_03 = true /\
    forall log, exists (out : message) (r : spec_float),
      outcome (compute msg) log = inr out /\
      out !! "mean_reversion_signal" = Some (PyStr "REVERT_DOWN") /\
      out !! "mean_reversion_deviation" = Some (PyFloat r) /\
      r = lit_0_03 /\
      Float.lt r (Float.neg lit_0_03) = false /\
      Float.gt r lit_0_03 = false.
Proof.
  exists (<["price" := PyFloat (Float.of_decimal false 103004 3)]>
            (<["moving_average" := PyInt 100]> ∅)).
  assert (Hp : coerces (price_field
            (<["price" := PyFloat (Float.of_decimal false 103004 3)]>
               (<["moving_average" := PyInt 100]> ∅)))
            (Float.of_decimal false 103004 3))
    by (intros log; reflexivity).
  assert (Hma : coerces (moving_average_field
            (<["price" := PyFloat (Float.of_decimal false 103004 3)]>
               (<["moving_average" := PyInt 100]> ∅))) lit_100_0)
    by (intros log; vm_compute; reflexivity).
  split; [exact Hp |]. split; [exact Hma |].
  split; [vm_compute; reflexivity |].
  intros log. eexists. exists lit_0_03. split.
  { unfold outcome. rewrite (compute_run _ _ _ _ Hp Hma eq_refl).
    reflexivity. }
  cbv zeta. rewrite merged_deviation, merged_signal.
  vm_compute. repeat split; reflexivity.
Qed.

(** ** The symbol *)

(** C10: the default "UNKNOWN" is not written into the result. When the
    message has no [symbol] key, the output has none either; the default
    only appears as the argument of the two log records. *)
Theorem unknown_symbol_is_only_logged
    (msg out : message) (log : list log_record) :
  msg !! "symbol" = None ->
  outcome (compute msg) log = inr out ->
  out !! "symbol" = None /\
  exists result : message,
    (compute msg log).1 =
      log ++ [info_record (PyStr "UNKNOWN");
              debug_record (PyStr "UNKNOWN") result].
Proof.
  intros Hsym Hout.
  destruct (compute_returns_inv _ _ _ Hout) as (p & ma & Hp & Hma & Hnz).
  assert (Hs : symbol_field msg = PyStr "UNKNOWN")
    by (apply dict_get_absent; exact Hsym).
  unfold outcome in Hout.
  rewrite (compute_run _ _ _ _ Hp Hma Hnz) in Hout |- *.
  cbv zeta in Hout |- *. cbn [snd] in Hout. injection Hout as <-.
  split.
  - rewrite merged_other by discriminate. exact Hsym.
  - rewrite Hs. eexists. reflexivity.
Qed.

End Properties.

(** ** Failure, logging and repeated enrichment *)

Section Further.

Variable float_of_str : string -> option spec_float.

#[local] Abbreviation float' := (float float_of_str).
#[local] Abbreviation coerces := (coerces_to float_of_str).
#[local] Abbreviation fails := (fails_with float_of_str).
#[local] Abbreviation compute := (compute_meanreversion_signal float_of_str).

(** What the function returns or raises does not depend on what the logger
    already holds. *)
Lemma compute_outcome_any_log (msg : message) (log1 log2 : list log_record) :
  outcome (compute msg) log1 = outcome (compute msg) log2.
Proof.
  unfold outcome.
  destruct (float_cases float_of_str (price_field msg)) as [[p Hp] | [e He]].
  2: { rewrite !(compute_run_bad_price _ _ _ _ He). reflexivity. }
  destruct (float_cases float_of_str (moving_average_field msg))
    as [[ma Hma] | [e He]].
  2: { rewrite !(compute_run_bad_average _ _ _ _ _ Hp He). reflexivity. }
  destruct (Float.is_zero ma) eqn:Hz.
  - rewrite !(compute_run_zero _ _ _ _ _ Hp Hma Hz). reflexivity.
  - rewrite !(compute_run _ _ _ _ _ Hp Hma Hz). reflexivity.
Qed.

(** X1: [compute_meanreversion_signal] returns a message exactly when the
    price and the moving average both convert to floats and the moving
    average is not a zero; in every other case it raises. *)
Theorem returns_iff_fields_convert (msg : message) (log : list log_record) :
  (exists out, outcome (compute msg) log = inr out) <->
  (exists p ma,
     coerces (price_field msg) p /\
     coerces (moving_average_field msg) ma /\
     Float.is_zero ma = false).
Proof.
  split.
  - intros [out Hout]. exact (compute_returns_inv _ _ _ _ Hout).
  - intros (p & ma & Hp & Hma & Hnz). eexists. unfold outcome.
    rewrite (compute_run _ _ _ _ _ Hp Hma Hnz). reflexivity.
Qed.

(** X2: the price is converted first and the moving average second, both
    before anything is logged. A price that does not convert makes the
    function raise the conversion's exception with the log untouched,
    whatever the moving average is (absent, not a number, zero); so does a
    moving average that does not convert once the price did. A price of
    None raises TypeError, a text the interpreter does not read as a float
    raises ValueError. *)
Theorem conversion_failure_raises_before_logging
    (msg : message) (log : list log_record) :
  (forall e, fails (price_field msg) e -> compute msg log = (log, inl e)) /\
  (forall p e,
     coerces (price_field msg) p ->
     fails (moving_average_field msg) e ->
     compute msg log = (log, inl e)) /\
  (msg !! "price" = Some PyNone ->
   compute msg log = (log, inl (Builtin TypeError))) /\
  (forall text,
     msg !! "price" = Some (PyStr text) ->
     float_of_str text = None ->
     compute msg log = (log, inl (Builtin ValueError))).
Proof.
  split; [| split; [| split]].
  - intros e He. apply compute_run_bad_price. exact He.
  - intros p e Hp He. apply (compute_run_bad_average _ _ _ p); assumption.
  - intros Hnone. apply compute_run_bad_price.
    intros l. unfold price_field, dict_get. rewrite Hnone. reflexivity.
  - intros text Htext Hparse. apply compute_run_bad_price.
    intros l. unfold price_field, dict_get. rewrite Htext.
    unfold float. rewrite Hparse. reflexivity.
Qed.

(** X3: a run that returns leaves exactly two new records after the ones
    the logger held: the info record, then the debug record. The mapping the
    debug record carries holds the two computed keys and nothing else, none
    of the fields of the message, and its two entries are the ones found
    in the returned message. *)
Theorem logged_result_is_the_computed_part
    (msg out : message) (log : list log_record) :
  outcome (compute msg) log = inr out ->
  exists result : message,
    (compute msg log).1 =
      log ++ [info_record (symbol_field msg);
              debug_record (symbol_field msg) result] /\
    dom result = computed_keys /\
    result ⊆ out /\
    out = dict_merge msg result.
Proof.
  intros Hout.
  destruct (compute_returns_inv _ _ _ _ Hout) as (p & ma & Hp & Hma & Hnz).
  unfold outcome in Hout.
  rewrite (compute_run _ _ _ _ _ Hp Hma Hnz) in Hout |- *.
  cbv zeta in Hout |- *. cbn [fst snd] in Hout |- *.
  apply (inj inr) in Hout. subst out.
  eexists. split; [reflexivity |]. split; [| split; [| reflexivity]].
  - rewrite !dom_insert_L, dom_empty_L. unfold computed_keys.
    apply set_eq. intros k. rewrite !elem_of_union, elem_of_empty. tauto.
  - unfold dict_merge. apply map_union_subseteq_l.
Qed.

(** X4: enriching is idempotent. When the function returns [out] for a
    message, it returns [out] again when it is given [out]: the two computed
    entries are recomputed from the same price and moving average and
    overwrite themselves. *)
Theorem enriching_twice_changes_nothing
    (msg out : message) (log log' : list log_record) :
  outcome (compute msg) log = inr out ->
  outcome (compute out) log' = inr out.
Proof.
  intros Hout.
  destruct (compute_returns_inv _ _ _ _ Hout) as (p & ma & Hp & Hma & Hnz).
  unfold outcome in Hout |- *.
  rewrite (compute_run _ _ _ _ _ Hp Hma Hnz) in Hout.
  cbv zeta in Hout. cbn [snd] in Hout. apply (inj inr) in Hout.
  assert (Hp' : coerces (price_field out) p).
  { unfold price_field, dict_get. rewrite <- Hout.
    rewrite merged_other by discriminate. exact Hp. }
  assert (Hma' : coerces (moving_average_field out) ma).
  { unfold moving_average_field, dict_get. rewrite <- Hout.
    rewrite merged_other by discriminate. exact Hma. }
  rewrite (compute_run _ _ _ _ _ Hp' Hma' Hnz). cbv zeta. cbn [snd].
  f_equal. rewrite merged_as_inserts in Hout |- *.
  apply map_eq. intros k. rewrite <- Hout at 2.
  destruct (decide (k = "mean_reversion_signal")) as [-> | Hsig].
  { rewrite !lookup_insert_eq. reflexivity. }
  rewrite !(lookup_insert_ne _ "mean_reversion_signal") by congruence.
  destruct (decide (k = "mean_reversion_deviation")) as [-> | Hdev].
  { rewrite !lookup_insert_eq. reflexivity. }
  rewrite !(lookup_insert_ne _ "mean_reversion_deviation") by congruence.
  rewrite <- Hout.
  rewrite lookup_insert_ne by congruence.
  rewrite lookup_insert_ne by congruence. reflexivity.
Qed.

(** ** Deviations that are not ordinary numbers *)

Lemma deviation_nan (p ma : spec_float) :
  p = S754_nan \/ ma = S754_nan \/ (exists s, ma = S754_infinity s) ->
  deviation_of p ma = S754_nan.
Proof.
  unfold deviation_of, Float.div, Float.sub.
  intros [-> | [-> | [s ->]]].
  - destruct ma; reflexivity.
  - destruct p; reflexivity.
  - destruct p as [sp | sp | | sp m e]; try destruct sp; destruct s;
      reflexivity.
Qed.

Lemma deviation_at_average (s : bool) (m : positive) (e : Z) :
  deviation_of (S754_finite s m e) (S754_finite s m e) = S754_zero s.
Proof.
  unfold deviation_of, Float.div, Float.sub, SFsub. cbv zeta.
  rewrite Z.sub_diag. reflexivity.
Qed.

(** X5: a NaN price (over a moving average that is not a zero), a NaN
    moving average or an infinite moving average raise nothing: the
    deviation is NaN, both comparisons are false on it, and the function
    returns the signal "NEUTRAL" with NaN stored as the deviation. *)
Theorem nan_deviation_is_neutral
    (msg : message) (log : list log_record) (p ma : spec_float) :
  coerces (price_field msg) p ->
  coerces (moving_average_field msg) ma ->
  Float.is_zero ma = false ->
  p = S754_nan \/ ma = S754_nan \/ (exists s, ma = S754_infinity s) ->
  exists out : message,
    outcome (compute msg) log = inr out /\
    out !! "mean_reversion_deviation" = Some (PyFloat S754_nan) /\
    out !! "mean_reversion_signal" = Some (PyStr "NEUTRAL").
Proof.
  intros Hp Hma Hnz Hodd.
  eexists. split.
  { unfold outcome. rewrite (compute_run _ _ _ _ _ Hp Hma Hnz). reflexivity. }
  cbv zeta. rewrite merged_deviation, merged_signal.
  rewrite (deviation_nan _ _ Hodd). split; reflexivity.
Qed.

(** X6: an infinite price over a finite nonzero moving average raises
    nothing either: the deviation is the infinity whose sign is the product
    of the two signs, it is stored as such, and the signal is "REVERT_DOWN"
    for plus infinity and "REVERT_UP" for minus infinity. *)
Theorem infinite_price_reverts
    (msg : message) (log : list log_record)
    (sp sm : bool) (m : positive) (e : Z) :
  coerces (price_field msg) (S754_infinity sp) ->
  coerces (moving_average_field msg) (S754_finite sm m e) ->
  exists out : message,
    outcome (compute msg) log = inr out /\
    out !! "mean_reversion_deviation" =
      Some (PyFloat (S754_infinity (xorb sp sm))) /\
    out !! "mean_reversion_signal" =
      Some (PyStr (if xorb sp sm then "REVERT_UP" else "REVERT_DOWN")).
Proof.
  intros Hp Hma. eexists. split.
  { unfold outcome. rewrite (compute_run _ _ _ _ _ Hp Hma eq_refl).
    reflexivity. }
  cbv zeta. rewrite merged_deviation, merged_signal, lit_0_03_bits.
  destruct sp, sm; split; reflexivity.
Qed.

(** X7: a price equal to a finite nonzero moving average gives a zero
    deviation, carrying the sign of the moving average (so -0.0 under a
    negative average), and the signal "NEUTRAL". *)
Theorem price_at_average_is_neutral
    (msg : message) (log : list log_record)
    (s : bool) (m : positive) (e : Z) :
  coerces (price_field msg) (S754_finite s m e) ->
  coerces (moving_average_field msg) (S754_finite s m e) ->
  exists out : message,
    outcome (compute msg) log = inr out /\
    out !! "mean_reversion_deviation" = Some (PyFloat (S754_zero s)) /\
    out !! "mean_reversion_signal" = Some (PyStr "NEUTRAL").
Proof.
  intros Hp Hma. eexists. split.
  { unfold outcome. rewrite (compute_run _ _ _ _ _ Hp Hma eq_refl).
    reflexivity. }
  cbv zeta. rewrite merged_deviation, merged_signal.
  rewrite deviation_at_average, lit_0_03_bits.
  destruct s; split; reflexivity.
Qed.

(** X8: the computed fields depend on the price and the moving average
    through their float values only. Two messages whose prices convert to
    the same float and whose moving averages convert to the same float,
    however they are written (int, float, text), either both raise the same
    exception or both return, with equal [mean_reversion_deviation] and
    equal [mean_reversion_signal]. *)
Theorem computed_fields_depend_on_float_values
    (m1 m2 : message) (log1 log2 : list log_record) (p ma : spec_float) :
  coerces (price_field m1) p ->
  coerces (price_field m2) p ->
  coerces (moving_average_field m1) ma ->
  coerces (moving_average_field m2) ma ->
  match outcome (compute m1) log1, outcome (compute m2) log2 with
  | inr out1, inr out2 =>
      out1 !! "mean_reversion_deviation" = out2 !! "mean_reversion_deviation" /\
      out1 !! "mean_reversion_signal" = out2 !! "mean_reversion_signal"
  | inl e1, inl e2 => e1 = e2
  | _, _ => False
  end.
Proof.
  intros Hp1 Hp2 Hma1 Hma2. unfold outcome.
  destruct (Float.is_zero ma) eqn:Hz.
  - rewrite (compute_run_zero _ _ _ _ _ Hp1 Hma1 Hz).
    rewrite (compute_run_zero _ _ _ _ _ Hp2 Hma2 Hz). reflexivity.
  - rewrite (compute_run _ _ _ _ _ Hp1 Hma1 Hz).
    rewrite (compute_run _ _ _ _ _ Hp2 Hma2 Hz). cbv zeta. cbn [snd].
    rewrite !merged_deviation, !merged_signal. split; reflexivity.
Qed.

End Further.

(** ** Validation followed by computation *)

Section Pipeline.

Variable float_of_str : string -> option spec_float.
Variable validate_message_schema : message -> bool.

#[local] Abbreviation validate :=
  (validate_input_message validate_message_schema).
#[local] Abbreviation compute := (compute_meanreversion_signal float_of_str).

(** X9: when the output of the validator is handed to the signal computer,
    a message the schema rejects never reaches it: the ValueError of the
    validator is what is raised and the log holds the validator's two
    records only, no record of the computation. A message the schema accepts
    is computed as it was received, the log holding the validator's debug
    record first, and the outcome is the one of the computation alone. *)
Theorem rejected_message_is_never_computed
    (msg : message) (log : list log_record) :
  (validate_message_schema msg = false ->
   (validate msg ≫= compute) log =
     (log ++ [LogRecord DEBUG "🔍 Validating message schema..." [];
              LogRecord ERROR "❌ Invalid message schema: %s" [PyDict msg]],
      inl (Raised ValueError "Invalid message format"))) /\
  (validate_message_schema msg = true ->
   (validate msg ≫= compute) log =
     compute msg (log ++ [LogRecord DEBUG "🔍 Validating message schema..." []]) /\
   outcome (validate msg ≫= compute) log = outcome (compute msg) log).
Proof.
  assert (Hrun : (validate msg ≫= compute) log =
            match validate msg log with
            | (log', inr checked) => compute checked log'
            | (log', inl e) => (log', inl e)
            end) by reflexivity.
  unfold outcome. rewrite Hrun, validate_run.
  destruct (validate_message_schema msg).
  - split; [discriminate |]. intros _. split; [reflexivity |].
    apply (compute_outcome_any_log float_of_str).
  - split; [reflexivity | discriminate].
Qed.

End Pipeline.

(** ** Rounding and the side of the signal *)








Section Sides.

Variable float_of_str : string -> option spec_float.

#[local] Abbreviation coerces := (coerces_to float_of_str).
#[local] Abbreviation compute := (compute_meanreversion_signal float_of_str).


End Sides.

(** ** The theorems at sample messages *)

Lemma signal_is_one_of_three_cases_witness :
  coerces_to decimal_float_of_str (price_field sample_low)
             (Float.of_decimal false 969 1) /\
  coerces_to decimal_float_of_str (moving_average_field sample_low)
             lit_100_0 /\
  Float.is_zero lit_100_0 = false /\
  exists out : message,
    outcome (sample_compute sample_low) [] = inr out /\
    out !! "mean_reversion_signal" = Some (PyStr "REVERT_UP").
Proof.
  assert (Hp : coerces_to decimal_float_of_str (price_field sample_low)
                 (Float.of_decimal false 969 1))
    by (intros log; vm_compute; reflexivity).
  assert (Hma : coerces_to decimal_float_of_str
                  (moving_average_field sample_low) lit_100_0)
    by (intros log; vm_compute; reflexivity).
  assert (Hnz : Float.is_zero lit_100_0 = false) by reflexivity.
  split; [exact Hp |]. split; [exact Hma |]. split; [exact Hnz |].
  destruct (signal_is_one_of_three_cases decimal_float_of_str sample_low []
              _ _ Hp Hma Hnz)
    as (out & signal & Hout & Hsig & _ & Hup & _).
  exists out. split; [exact Hout |].
  rewrite Hsig. f_equal. f_equal. apply Hup. vm_compute. reflexivity.
Defined.

Lemma deviation_field_is_rounded_half_even_witness :
  coerces_to decimal_float_of_str (price_field sample_low)
             (Float.of_decimal false 969 1) /\
  coerces_to decimal_float_of_str (moving_average_field sample_low)
             lit_100_0 /\
  Float.is_zero lit_100_0 = false /\
  exists (out : message) (r : spec_float),
    outcome (sample_compute sample_low) [] = inr out /\
    out !! "mean_reversion_deviation" = Some (PyFloat r) /\
    rounds_half_even_to 4
      (Float.div (Float.sub (Float.of_decimal false 969 1) lit_100_0)
                 lit_100_0) r.
Proof.
  assert (Hp : coerces_to decimal_float_of_str (price_field sample_low)
                 (Float.of_decimal false 969 1))
    by (intros log; vm_compute; reflexivity).
  assert (Hma : coerces_to decimal_float_of_str
                  (moving_average_field sample_low) lit_100_0)
    by (intros log; vm_compute; reflexivity).
  assert (Hnz : Float.is_zero lit_100_0 = false) by reflexivity.
  split; [exact Hp |]. split; [exact Hma |]. split; [exact Hnz |].
  exact (deviation_field_is_rounded_half_even decimal_float_of_str
           sample_low [] _ _ Hp Hma Hnz).
Defined.

Lemma output_is_input_plus_two_fields_witness :
  coerces_to decimal_float_of_str (price_field sample_stale)
             (Float.of_decimal false 10301 2) /\
  coerces_to decimal_float_of_str (moving_average_field sample_stale)
             lit_100_0 /\
  Float.is_zero lit_100_0 = false /\
  exists out : message,
    outcome (sample_compute sample_stale) [] = inr out /\
    out !! "symbol" = Some (PyStr "ACME") /\
    out !! "mean_reversion_deviation" =
      Some (PyFloat (Float.of_decimal false 301 4)) /\
    out !! "mean_reversion_signal" = Some (PyStr "REVERT_DOWN").
Proof.
  assert (Hp : coerces_to decimal_float_of_str (price_field sample_stale)
                 (Float.of_decimal false 10301 2))
    by (intros log; vm_compute; reflexivity).
  assert (Hma : coerces_to decimal_float_of_str
                  (moving_average_field sample_stale) lit_100_0)
    by (intros log; vm_compute; reflexivity).
  assert (Hnz : Float.is_zero lit_100_0 = false) by reflexivity.
  split; [exact Hp |]. split; [exact Hma |]. split; [exact Hnz |].
  destruct (output_is_input_plus_two_fields decimal_float_of_str
              sample_stale [] _ _ Hp Hma Hnz)
    as (out & Hout & _ & Hframe & Hdev & Hsig & _).
  exists out. split; [exact Hout |]. split; [| split].
  - rewrite Hframe by discriminate. vm_compute. reflexivity.
  - rewrite Hdev. vm_compute. reflexivity.
  - rewrite Hsig. vm_compute. reflexivity.
Defined.

Lemma unknown_symbol_is_only_logged_witness :
  sample_anonymous !! "symbol" = None /\
  outcome (sample_compute sample_anonymous) [] =
    inr (<["mean_reversion_signal" := PyStr "NEUTRAL"]>
           (<["mean_reversion_deviation" :=
                PyFloat (Float.of_decimal false 1 2)]> sample_anonymous)) /\
  (<["mean_reversion_signal" := PyStr "NEUTRAL"]>
     (<["mean_reversion_deviation" :=
          PyFloat (Float.of_decimal false 1 2)]> sample_anonymous))
    !! "symbol" = None.
Proof.
  assert (Hsym : sample_anonymous !! "symbol" = None) by reflexivity.
  assert (Hout : outcome (sample_compute sample_anonymous) [] =
    inr (<["mean_reversion_signal" := PyStr "NEUTRAL"]>
           (<["mean_reversion_deviation" :=
                PyFloat (Float.of_decimal false 1 2)]> sample_anonymous)))
    by (vm_compute; reflexivity).
  split; [exact Hsym |]. split; [exact Hout |].
  exact (proj1 (unknown_symbol_is_only_logged decimal_float_of_str
                  sample_anonymous _ [] Hsym Hout)).
Defined.

Lemma validate_fails_iff_schema_rejects_witness :
  three_fields_schema sample_anonymous = false /\
  outcome (sample_validate sample_anonymous) [] =
    inl (Raised ValueError "Invalid message format") /\
  three_fields_schema sample_low = true /\
  outcome (sample_validate sample_low) [] = inr sample_low.
Proof.
  assert (Hno : three_fields_schema sample_anonymous = false)
    by (vm_compute; reflexivity).
  assert (Hyes : three_fields_schema sample_low = true)
    by (vm_compute; reflexivity).
  destruct (validate_fails_iff_schema_rejects three_fields_schema
              sample_anonymous []) as (_ & _ & Hraise & _).
  destruct (validate_fails_iff_schema_rejects three_fields_schema
              sample_low []) as (_ & _ & _ & Hret).
  split; [exact Hno |]. split; [| split; [exact Hyes | exact (Hret Hyes)]].
  unfold outcome, sample_validate. rewrite (Hraise Hno). reflexivity.
Defined.

Lemma defaults_for_absent_fields_witness :
  sample_bare !! "price" = None /\
  sample_bare !! "moving_average" = None /\
  exists out : message,
    outcome (sample_compute sample_bare) [] = inr out /\
    out !! "mean_reversion_deviation" = Some (PyFloat (S754_zero false)) /\
    out !! "mean_reversion_signal" = Some (PyStr "NEUTRAL").
Proof.
  assert (Hprice : sample_bare !! "price" = None) by reflexivity.
  assert (Havg : sample_bare !! "moving_average" = None) by reflexivity.
  split; [exact Hprice |]. split; [exact Havg |].
  destruct (defaults_for_absent_fields decimal_float_of_str sample_bare [])
    as (_ & _ & _ & _ & Hboth).
  exact (proj2 (Hboth Hprice Havg)).
Defined.

Lemma boundary_inputs_witness :
  coerces_to decimal_float_of_str (price_field sample_boundary)
             (Float.of_decimal false 103 0) /\
  coerces_to decimal_float_of_str (moving_average_field sample_boundary)
             lit_100_0 /\
  exists out : message,
    outcome (sample_compute sample_boundary) [] = inr out /\
    out !! "mean_reversion_deviation" = Some (PyFloat lit_0_03) /\
    out !! "mean_reversion_signal" = Some (PyStr "NEUTRAL").
Proof.
  assert (Hp : coerces_to decimal_float_of_str (price_field sample_boundary)
                 (Float.of_decimal false 103 0))
    by (intros log; vm_compute; reflexivity).
  assert (Hma : coerces_to decimal_float_of_str
                  (moving_average_field sample_boundary) lit_100_0)
    by (intros log; vm_compute; reflexivity).
  split; [exact Hp |]. split; [exact Hma |].
  destruct (proj1 (boundary_inputs decimal_float_of_str sample_boundary [])
              Hp Hma) as (out & Hout & _ & Hdev & Hsig).
  exists out. split; [exact Hout |]. split; [exact Hdev | exact Hsig].
Defined.

Lemma conversion_failure_raises_before_logging_witness :
  sample_null_price !! "price" = Some PyNone /\
  coerces_to decimal_float_of_str (moving_average_field sample_null_price)
             (S754_zero false) /\
  sample_compute sample_null_price [] = ([], inl (Builtin TypeError)) /\
  sample_bad_average !! "moving_average" = Some (PyStr "n/a") /\
  sample_compute sample_bad_average [] = ([], inl (Builtin ValueError)).
Proof.
  assert (Hnone : sample_null_price !! "price" = Some PyNone)
    by reflexivity.
  assert (Hp : coerces_to decimal_float_of_str (price_field sample_bad_average)
                 (Float.of_decimal false 103 0))
    by (intros log; vm_compute; reflexivity).
  assert (Hbad : fails_with decimal_float_of_str
                   (moving_average_field sample_bad_average)
                   (Builtin ValueError))
    by (intros log; vm_compute; reflexivity).
  split; [exact Hnone |].
  split; [intros log; vm_compute; reflexivity |].
  split; [| split; [reflexivity |]].
  - exact (proj1 (proj2 (proj2
      (conversion_failure_raises_before_logging decimal_float_of_str
         sample_null_price []))) Hnone).
  - exact (proj1 (proj2
      (conversion_failure_raises_before_logging decimal_float_of_str
         sample_bad_average [])) _ _ Hp Hbad).
Defined.

Lemma logged_result_is_the_computed_part_witness :
  outcome (sample_compute sample_boundary) [] = inr sample_boundary_out /\
  exists result : message,
    (sample_compute sample_boundary []).1 =
      [info_record (PyStr "ACME"); debug_record (PyStr "ACME") result] /\
    dom result = computed_keys /\
    result ⊆ sample_boundary_out.
Proof.
  assert (Hout : outcome (sample_compute sample_boundary) [] =
                 inr sample_boundary_out) by (vm_compute; reflexivity).
  split; [exact Hout |].
  destruct (logged_result_is_the_computed_part decimal_float_of_str
              sample_boundary sample_boundary_out [] Hout)
    as (result & Hlog & Hdom & Hsub & _).
  exists result. split; [exact Hlog |]. split; [exact Hdom | exact Hsub].
Defined.

Lemma enriching_twice_changes_nothing_witness :
  outcome (sample_compute sample_boundary) [] = inr sample_boundary_out /\
  outcome (sample_compute sample_boundary_out) [] = inr sample_boundary_out.
Proof.
  assert (Hout : outcome (sample_compute sample_boundary) [] =
                 inr sample_boundary_out) by (vm_compute; reflexivity).
  split; [exact Hout |].
  exact (enriching_twice_changes_nothing decimal_float_of_str
           sample_boundary sample_boundary_out [] [] Hout).
Defined.

Lemma nan_deviation_is_neutral_witness :
  coerces_to decimal_float_of_str (price_field sample_nan) S754_nan /\
  coerces_to decimal_float_of_str (moving_average_field sample_nan)
             lit_100_0 /\
  Float.is_zero lit_100_0 = false /\
  exists out : message,
    outcome (sample_compute sample_nan) [] = inr out /\
    out !! "mean_reversion_deviation" = Some (PyFloat S754_nan) /\
    out !! "mean_reversion_signal" = Some (PyStr "NEUTRAL").
Proof.
  assert (Hp : coerces_to decimal_float_of_str (price_field sample_nan)
                 S754_nan) by (intros log; reflexivity).
  assert (Hma : coerces_to decimal_float_of_str
                  (moving_average_field sample_nan) lit_100_0)
    by (intros log; vm_compute; reflexivity).
  split; [exact Hp |]. split; [exact Hma |]. split; [reflexivity |].
  exact (nan_deviation_is_neutral decimal_float_of_str sample_nan []
           _ _ Hp Hma eq_refl (or_introl eq_refl)).
Defined.

Lemma infinite_price_reverts_witness :
  coerces_to decimal_float_of_str (price_field sample_soaring)
             (S754_infinity false) /\
  coerces_to decimal_float_of_str (moving_average_field sample_soaring)
             (S754_finite true 7036874417766400 (-46)) /\
  exists out : message,
    outcome (sample_compute sample_soaring) [] = inr out /\
    out !! "mean_reversion_deviation" = Some (PyFloat (S754_infinity true)) /\
    out !! "mean_reversion_signal" = Some (PyStr "REVERT_UP").
Proof.
  assert (Hp : coerces_to decimal_float_of_str (price_field sample_soaring)
                 (S754_infinity false)) by (intros log; reflexivity).
  assert (Hma : coerces_to decimal_float_of_str
                  (moving_average_field sample_soaring)
                  (S754_finite true 7036874417766400 (-46)))
    by (intros log; vm_compute; reflexivity).
  split; [exact Hp |]. split; [exact Hma |].
  exact (infinite_price_reverts decimal_float_of_str sample_soaring []
           false true _ _ Hp Hma).
Defined.

Lemma price_at_average_is_neutral_witness :
  coerces_to decimal_float_of_str (price_field sample_flat)
             (S754_finite true 6818731310815642 (-46)) /\
  coerces_to decimal_float_of_str (moving_average_field sample_flat)
             (S754_finite true 6818731310815642 (-46)) /\
  exists out : message,
    outcome (sample_compute sample_flat) [] = inr out /\
    out !! "mean_reversion_deviation" = Some (PyFloat (S754_zero true)) /\
    out !! "mean_reversion_signal" = Some (PyStr "NEUTRAL").
Proof.
  assert (Hp : coerces_to decimal_float_of_str (price_field sample_flat)
                 (S754_finite true 6818731310815642 (-46)))
    by (intros log; vm_compute; reflexivity).
  assert (Hma : coerces_to decimal_float_of_str
                  (moving_average_field sample_flat)
                  (S754_finite true 6818731310815642 (-46)))
    by (intros log; vm_compute; reflexivity).
  split; [exact Hp |]. split; [exact Hma |].
  exact (price_at_average_is_neutral decimal_float_of_str sample_flat []
           _ _ _ Hp Hma).
Defined.

Lemma computed_fields_depend_on_float_values_witness :
  coerces_to decimal_float_of_str (price_field sample_boundary)
             (Float.of_decimal false 103 0) /\
  coerces_to decimal_float_of_str (price_field sample_boundary_text)
             (Float.of_decimal false 103 0) /\
  coerces_to decimal_float_of_str (moving_average_field sample_boundary)
             lit_100_0 /\
  coerces_to decimal_float_of_str (moving_average_field sample_boundary_text)
             lit_100_0 /\
  match outcome (sample_compute sample_boundary) [],
        outcome (sample_compute sample_boundary_text) [] with
  | inr out1, inr out2 =>
      out1 !! "mean_reversion_deviation" = out2 !! "mean_reversion_deviation" /\
      out1 !! "mean_reversion_signal" = out2 !! "mean_reversion_signal"
  | inl e1, inl e2 => e1 = e2
  | _, _ => False
  end.
Proof.
  assert (Hp1 : coerces_to decimal_float_of_str (price_field sample_boundary)
                  (Float.of_decimal false 103 0))
    by (intros log; vm_compute; reflexivity).
  assert (Hp2 : coerces_to decimal_float_of_str
                  (price_field sample_boundary_text)
                  (Float.of_decimal false 103 0))
    by (intros log; vm_compute; reflexivity).
  assert (Hma1 : coerces_to decimal_float_of_str
                   (moving_average_field sample_boundary) lit_100_0)
    by (intros log; vm_compute; reflexivity).
  assert (Hma2 : coerces_to decimal_float_of_str
                   (moving_average_field sample_boundary_text) lit_100_0)
    by (intros log; vm_compute; reflexivity).
  split; [exact Hp1 |]. split; [exact Hp2 |].
  split; [exact Hma1 |]. split; [exact Hma2 |].
  exact (computed_fields_depend_on_float_values decimal_float_of_str
           sample_boundary sample_boundary_text [] [] _ _
           Hp1 Hp2 Hma1 Hma2).
Defined.

Lemma rejected_message_is_never_computed_witness :
  three_fields_schema sample_anonymous = false /\
  outcome (sample_validate sample_anonymous ≫= sample_compute) [] =
    inl (Raised ValueError "Invalid message format") /\
  three_fields_schema sample_boundary = true /\
  outcome (sample_validate sample_boundary ≫= sample_compute) [] =
    inr sample_boundary_out.
Proof.
  assert (Hno : three_fields_schema sample_anonymous = false)
    by (vm_compute; reflexivity).
  assert (Hyes : three_fields_schema sample_boundary = true)
    by (vm_compute; reflexivity).
  split; [exact Hno |]. split; [| split; [exact Hyes |]].
  - unfold outcome, sample_validate, sample_compute.
    rewrite (proj1 (rejected_message_is_never_computed decimal_float_of_str
                      three_fields_schema sample_anonymous []) Hno).
    reflexivity.
  - unfold sample_validate, sample_compute.
    rewrite (proj2 (proj2 (rejected_message_is_never_computed
                             decimal_float_of_str three_fields_schema
                             sample_boundary []) Hyes)).
    vm_compute. reflexivity.
Defined.

